(** * Turbine: the package descriptor [setup.py]

    The repository's source is a single script.  It reads [README.md],
    rewrites the relative markdown links of that text into absolute
    links to the GitHub repository, and hands the result, together with
    the fixed package metadata, to [setuptools.setup].

    The development below embeds that script: Python's [str.replace]
    and [str.join] on strings, the file system and the [setup] call as
    a state-and-exception monad, and the script itself as a computation
    in that monad.  The theorems that follow are about the embedded
    script. *)

From Stdlib Require Import Ascii.
From stdpp Require Import gmap strings list.

(** ** Python strings *)

(** A Python [str] is modelled by [string], a character outside ASCII by
    the bytes of its UTF-8 encoding.  The text the script looks for and
    inserts is ASCII, and no ASCII byte lies inside the encoding of
    another character, so replacing on these bytes is replacing on the
    characters. *)
Module PyStr.

(** [s.replace(old, new)] for a non-empty [old]: scan [s] from the
    left; where [old] starts, emit [new] and step over the whole
    occurrence (the [skip] counter holds how many of its characters
    are still to be stepped over), otherwise copy one character. *)
Fixpoint replace_scan (old new : string) (skip : nat) (s : string) : string :=
  match s with
  | EmptyString => EmptyString
  | String c s' =>
      match skip with
      | S k => replace_scan old new k s'
      | O =>
          if String.prefix old s
          then new +:+ replace_scan old new (String.length old - 1) s'
          else String c (replace_scan old new 0 s')
      end
  end.

(** [s.replace("", new)]: [new] goes before every character and after
    the last one. *)
Fixpoint replace_empty (new s : string) : string :=
  match s with
  | EmptyString => new
  | String c s' => new +:+ String c (replace_empty new s')
  end.

(** [s.replace(old, new)]. *)
Definition replace (s old new : string) : string :=
  match old with
  | EmptyString => replace_empty new s
  | String _ _ => replace_scan old new 0 s
  end.

(** [sep.join(parts)]. *)
Definition join (sep : string) (parts : list string) : string :=
  String.concat sep parts.

(** [sub in s], as a proposition: [sub] occurs somewhere in [s]. *)
Definition occurs_in (sub s : string) : Prop :=
  ∃ before after, s = before +:+ sub +:+ after.

(** [sub in s], as the test Python runs. *)
Fixpoint contains (sub s : string) : bool :=
  String.prefix sub s ||
  match s with
  | EmptyString => false
  | String _ s' => contains sub s'
  end.

(** [s.count(sub)] for a non-empty [sub]: the occurrences met by the
    same left-to-right scan, none overlapping another. *)
Fixpoint count_scan (sub : string) (skip : nat) (s : string) : nat :=
  match s with
  | EmptyString => 0
  | String c s' =>
      match skip with
      | S k => count_scan sub k s'
      | O =>
          if String.prefix sub s
          then S (count_scan sub (String.length sub - 1) s')
          else count_scan sub 0 s'
      end
  end.

(** [s.count(sub)]; the empty string is counted once at every position. *)
Definition count (s sub : string) : nat :=
  match sub with
  | EmptyString => S (String.length s)
  | String _ _ => count_scan sub 0 s
  end.

End PyStr.

(** ** The interpreter state and its monad *)

(** The values the script passes as keyword arguments: strings and lists
    of strings. *)
Inductive value : Type :=
  | VStr (s : string)
  | VList (xs : list string).

(** The exceptions the script can meet. *)
Inductive exn : Type :=
  | FileNotFoundError (filename : string).

Inductive outcome (A : Type) : Type :=
  | Returned (a : A)
  | Raised (e : exn).
Arguments Returned {A} a.
Arguments Raised {A} e.

(** What the script sees and changes.  [files] gives, for the name of
    each readable text file of the working directory, the text that
    [read()] returns for it; [found_packages] is what
    [setuptools.find_packages()] returns there.  [open_files] lists the
    files currently held open and [setup_calls] the keyword arguments of
    every [setuptools.setup] call made so far, latest first. *)
Record state : Type := State {
  files : gmap string string;
  found_packages : list string;
  open_files : list string;
  setup_calls : list (gmap string value)
}.

Definition M (A : Type) : Type := state → outcome A * state.

#[global] Instance M_ret : MRet M := λ A a σ, (Returned a, σ).

#[global] Instance M_bind : MBind M := λ A B f m σ,
  match m σ with
  | (Returned a, σ') => f a σ'
  | (Raised e, σ') => (Raised e, σ')
  end.

(** A file object opened for reading, positioned at the start. *)
Record file_object : Type := FileObject {
  fo_name : string;
  fo_text : string
}.

(** [open(file, "r")]: a missing file raises [FileNotFoundError]. *)
Definition open_r (file : string) : M file_object := λ σ,
  match files σ !! file with
  | Some text =>
      (Returned (FileObject file text),
       State (files σ) (found_packages σ) (file :: open_files σ) (setup_calls σ))
  | None => (Raised (FileNotFoundError file), σ)
  end.

(** [fh.read()] on a freshly opened file: the whole text. *)
Definition read (fh : file_object) : M string := mret (fo_text fh).

Fixpoint remove_first (x : string) (l : list string) : list string :=
  match l with
  | [] => []
  | y :: l' => if decide (x = y) then l' else y :: remove_first x l'
  end.

Definition close (fh : file_object) (σ : state) : state :=
  State (files σ) (found_packages σ)
        (remove_first (fo_name fh) (open_files σ)) (setup_calls σ).

(** Leaving a [with] block: the file is closed whether the body returned
    or raised, and the body's outcome is passed on. *)
Definition closing {A : Type} (fh : file_object) (body : M A) : M A := λ σ,
  let '(r, σ') := body σ in (r, close fh σ').

(** [with open(file, "r") as fh: body].  When [open] raises, the body is
    not run and there is nothing to close. *)
Definition with_open {A : Type} (file : string) (body : file_object → M A) : M A :=
  fh ← open_r file; closing fh (body fh).

(** [setuptools.find_packages()]. *)
Definition find_packages : M (list string) := λ σ, (Returned (found_packages σ), σ).

(** [setuptools.setup] called with keyword arguments: the call is
    recorded with them. *)
Definition setup (kwargs : gmap string value) : M () := λ σ,
  (Returned (),
   State (files σ) (found_packages σ) (open_files σ) (kwargs :: setup_calls σ)).

(** ** The script *)

(** The text put in front of every link target. *)
Definition link_base : string := "https://github.com/Kasekopf/Turbine/blob/master/".

(** Lines 3-6: the text of [README.md] with its links rewritten. *)
Definition rewrite_links (text : string) : string :=
  PyStr.replace text "](" "](https://github.com/Kasekopf/Turbine/blob/master/".

Definition read_long_description : M string :=
  with_open "README.md" (λ fh, text ← read fh; mret (rewrite_links text)).

(** Lines 9-26: the keyword arguments of the [setup] call. *)
Definition setup_kwargs (long_description : string) (packages : list string)
  : gmap string value :=
  list_to_map [
    ("name", VStr "turbine");
    ("version", VStr "0.1.0");
    ("author", VStr "Jeffrey Dudek");
    ("author_email", VStr "jeffreydudek@gmail.com");
    ("description",
      VStr "A Python 3 tool to harness the google cloud to run shell scripts");
    ("long_description", VStr long_description);
    ("long_description_content_type", VStr "text/markdown");
    ("url", VStr "https://github.com/Kasekopf/Turbine");
    ("packages", VList packages);
    ("license", VStr "MIT");
    ("platforms", VStr "Posix; MacOS X; Windows");
    ("install_requires",
      VList ["google-cloud-pubsub"; "google-cloud-storage";
             "google-cloud-logging"; "google-api-python-client"]);
    ("python_requires", VStr ">=3.6");
    ("classifiers",
      VList ["Programming Language :: Python :: 3";
             "License :: OSI Approved :: MIT License";
             "Operating System :: OS Independent"])
  ].

(** The whole of [setup.py].  Line 1 imports [setuptools], which is
    taken to be installed; the keyword arguments are evaluated in the
    order they are written, so [find_packages] runs after the README
    has been read and before [setup] is entered. *)
Definition script : M () :=
  long_description ← read_long_description;
  packages ← find_packages;
  setup (setup_kwargs long_description packages).

(** The state the interpreter starts the script in: nothing is open and
    [setup] has not been called. *)
Definition boot (fs : gmap string string) (pkgs : list string) : state :=
  State fs pkgs [] [].

(** Running [setup.py] in a working directory. *)
Definition run (fs : gmap string string) (pkgs : list string) : outcome () * state :=
  script (boot fs pkgs).

(** The keyword arguments of the [setup] calls of a run. *)
Definition declared (fs : gmap string string) (pkgs : list string)
  : list (gmap string value) :=
  setup_calls (run fs pkgs).2.

(** ** What the description says, and a directory to try it in *)

(** The text with every occurrence of the link marker replaced, in the
    words of the description: [text] is cut at its markers into parts
    that hold no marker, and [out] is these same parts with [new] put
    where the markers were. *)
Definition every_marker_replaced (new text out : string) : Prop :=
  ∃ parts,
    text = PyStr.join "](" parts ∧
    Forall (λ p, ¬ PyStr.occurs_in "](" p) parts ∧
    out = PyStr.join new parts.

(** The trove classifier of an OSI-approved license called [name]. *)
Definition license_classifier (name : string) : string :=
  "License :: OSI Approved :: " +:+ name +:+ " License".

(** The classifiers of a list that are about the license. *)
Definition license_classifiers (classifiers : list string) : list string :=
  filter (λ c, String.prefix "License :: " c = true) classifiers.

(** A working directory to run the script in. *)
Definition readme_example : string :=
  "# Turbine: see [the guide](docs/guide.md) and [the license](LICENSE).".

Definition fs_example : gmap string string :=
  {[ "README.md" := readme_example; "setup.py" := "import setuptools" ]}.

Definition kwargs_example : gmap string value :=
  setup_kwargs
    "# Turbine: see [the guide](https://github.com/Kasekopf/Turbine/blob/master/docs/guide.md) and [the license](https://github.com/Kasekopf/Turbine/blob/master/LICENSE)."
    ["turbine"].

(** Undoing the rewriting:
    [out.replace("](https://github.com/Kasekopf/Turbine/blob/master/", "](")]. *)
Definition restore_links (out : string) : string :=
  PyStr.replace out "](https://github.com/Kasekopf/Turbine/blob/master/" "](".

(** ** Strings: append, prefixes and occurrences *)

Section StringFacts.

Lemma app_cons (c : ascii) (s t : string) : String c s +:+ t = String c (s +:+ t).
Proof. reflexivity. Qed.

Lemma app_nil_r (s : string) : s +:+ "" = s.
Proof. induction s as [|c s IH]; [done|]. by rewrite app_cons, IH. Qed.

Lemma app_assoc (s t u : string) : (s +:+ t) +:+ u = s +:+ t +:+ u.
Proof. induction s as [|c s IH]; [done|]. by rewrite !app_cons, IH. Qed.

Lemma length_app (s t : string) :
  String.length (s +:+ t) = String.length s + String.length t.
Proof.
  induction s as [|c s IH]; [done|].
  rewrite app_cons. simpl. by rewrite IH.
Qed.

(** Induction on strings that gives the hypothesis for the tail and for
    the tail of the tail, as a scan that consumes one or two characters
    needs it. *)
Lemma string_ind2 (P : string → Prop) :
  P "" →
  (∀ c, P (String c "")) →
  (∀ c d r, P r → P (String d r) → P (String c (String d r))) →
  ∀ s, P s.
Proof.
  intros Hnil Hone Hstep s.
  cut (P s ∧ ∀ c, P (String c s)); [tauto|].
  induction s as [|d r [IHr IHdr]]; split; auto.
Qed.

Lemma prefix_spec (sub s : string) :
  String.prefix sub s = true ↔ ∃ after, s = sub +:+ after.
Proof.
  revert s. induction sub as [|a sub IH]; intros s.
  - split; [intros _; by exists s|intros _; by destruct s].
  - destruct s as [|b s]; simpl.
    + split; [done|intros [after ?]; done].
    + destruct (ascii_dec a b) as [->|Hne].
      * rewrite IH. split; intros [after Hafter]; exists after.
        -- by rewrite app_cons, Hafter.
        -- rewrite app_cons in Hafter. congruence.
      * split; [done|]. intros [after Hafter].
        rewrite app_cons in Hafter. congruence.
Qed.

Lemma contains_spec (sub s : string) :
  PyStr.contains sub s = true ↔ PyStr.occurs_in sub s.
Proof.
  unfold PyStr.occurs_in. induction s as [|c s IH].
  - cbn [PyStr.contains]. rewrite orb_false_r, prefix_spec. split.
    + intros [after Hafter]. by exists "", after.
    + intros [[|b before] [after Heq]]; [by exists after|done].
  - cbn [PyStr.contains]. rewrite orb_true_iff, IH, prefix_spec. split.
    + intros [[after Heq]|(before & after & Heq)].
      * by exists "", after.
      * exists (String c before), after. by rewrite app_cons, Heq.
    + intros [[|b before] [after Heq]].
      * left. by exists after.
      * right. exists before, after. rewrite app_cons in Heq. congruence.
Qed.

Lemma contains_false (sub s : string) :
  PyStr.contains sub s = false ↔ ¬ PyStr.occurs_in sub s.
Proof. rewrite <-contains_spec. by destruct (PyStr.contains sub s). Qed.

End StringFacts.

(** ** Replacing the link marker *)

Section Marker.

Variable new : string.

Lemma prefix_marker (s : string) :
  String.prefix "](" s = true ↔ ∃ r, s = String "]" (String "(" r).
Proof. apply prefix_spec. Qed.

Lemma scan_marker (r : string) :
  PyStr.replace_scan "](" new 0 (String "]" (String "(" r))
  = new +:+ PyStr.replace_scan "](" new 0 r.
Proof.
  assert (String.prefix "](" (String "]" (String "(" r)) = true) as Hpre.
  { apply prefix_marker. by exists r. }
  cbn [PyStr.replace_scan]. by rewrite Hpre.
Qed.

Lemma scan_other (c : ascii) (r : string) :
  String.prefix "](" (String c r) = false →
  PyStr.replace_scan "](" new 0 (String c r)
  = String c (PyStr.replace_scan "](" new 0 r).
Proof. intros Hpre. cbn [PyStr.replace_scan]. by rewrite Hpre. Qed.

Lemma marker_free_tail (c : ascii) (p : string) :
  ¬ PyStr.occurs_in "](" (String c p) → ¬ PyStr.occurs_in "](" p.
Proof.
  intros Hfree (before & after & ->). apply Hfree.
  by exists (String c before), after.
Qed.

Lemma marker_free_cons (c : ascii) (p : string) :
  String.prefix "](" (String c p) = false →
  ¬ PyStr.occurs_in "](" p →
  ¬ PyStr.occurs_in "](" (String c p).
Proof.
  intros Hpre Hfree ([|b before] & after & Heq).
  - assert (String.prefix "](" (String c p) = true) as Htrue; [|congruence].
    apply prefix_spec. by exists after.
  - apply Hfree. exists before, after. rewrite app_cons in Heq. congruence.
Qed.

(** No marker starts inside a marker-free part, also not on its last
    character when a marker follows. *)
Lemma marker_free_prefix (c : ascii) (p r : string) :
  ¬ PyStr.occurs_in "](" (String c p) →
  String.prefix "](" (String c (p +:+ String "]" r)) = false.
Proof.
  intros Hfree.
  destruct (String.prefix _ _) eqn:Hpre; [|done].
  apply prefix_marker in Hpre as [r' Heq].
  destruct p as [|d p]; [done|]. rewrite app_cons in Heq.
  injection Heq as -> -> _. destruct Hfree. by exists "", p.
Qed.

Lemma scan_part (p r : string) :
  ¬ PyStr.occurs_in "](" p →
  PyStr.replace_scan "](" new 0 (p +:+ String "]" (String "(" r))
  = p +:+ new +:+ PyStr.replace_scan "](" new 0 r.
Proof.
  induction p as [|c p IH]; intros Hfree.
  - apply scan_marker.
  - rewrite !app_cons, scan_other by by apply marker_free_prefix.
    f_equal. eauto using marker_free_tail.
Qed.

Lemma scan_last_part (p : string) :
  ¬ PyStr.occurs_in "](" p → PyStr.replace_scan "](" new 0 p = p.
Proof.
  induction p as [|c p IH]; intros Hfree; [done|].
  rewrite scan_other.
  - f_equal. eauto using marker_free_tail.
  - destruct (String.prefix _ _) eqn:Hpre; [|done].
    destruct Hfree. apply prefix_spec in Hpre as [after ->]. by exists "", after.
Qed.

(** [replace] turns a text joined with markers into the same parts
    joined with [new]. *)
Lemma replace_join (parts : list string) :
  Forall (λ p, ¬ PyStr.occurs_in "](" p) parts →
  PyStr.replace (PyStr.join "](" parts) "](" new = PyStr.join new parts.
Proof.
  unfold PyStr.replace, PyStr.join.
  induction 1 as [|p [|q parts] Hp Hparts IH]; [done|by apply scan_last_part|].
  change (String.concat "](" (p :: q :: parts))
    with (p +:+ String "]" (String "(" (String.concat "](" (q :: parts)))).
  by rewrite scan_part, IH.
Qed.

(** Every text is its marker-free parts joined with markers. *)
Lemma marker_parts (s : string) :
  ∃ p parts,
    s = PyStr.join "](" (p :: parts) ∧
    Forall (λ p, ¬ PyStr.occurs_in "](" p) (p :: parts).
Proof.
  induction s as [|c|c d r IHr IHdr] using string_ind2.
  - exists "", []. split; [done|]. repeat constructor. by intros ([|??] & ? & ?).
  - exists (String c ""), []. split; [done|]. repeat constructor.
    by intros ([|?[|??]] & ? & ?).
  - destruct (String.prefix "](" (String c (String d r))) eqn:Hpre.
    + apply prefix_marker in Hpre as [r' [= -> -> ->]].
      destruct IHr as (p & parts & -> & Hfree).
      exists "", (p :: parts). split; [done|].
      constructor; [by intros ([|??] & ? & ?)|done].
    + destruct IHdr as (p & parts & Heq & Hfree).
      exists (String c p), parts. split.
      * rewrite Heq. unfold PyStr.join. by destruct parts.
      * apply Forall_cons in Hfree as [Hp Hparts].
        constructor; [|done]. apply marker_free_cons; [|done].
        destruct (String.prefix _ (String c p)) eqn:Hpre'; [|done].
        apply prefix_marker in Hpre' as [r' [= -> ->]].
        assert (d = "(")%char as ->.
        { unfold PyStr.join in Heq. destruct parts; by injection Heq. }
        assert (String.prefix "](" (String "]" (String "(" r)) = true);
          [|congruence].
        apply prefix_marker. by exists r.
Qed.

Lemma replace_spec (s : string) :
  every_marker_replaced new s (PyStr.replace s "](" new).
Proof.
  destruct (marker_parts s) as (p & parts & -> & Hfree).
  exists (p :: parts). by rewrite replace_join.
Qed.

Lemma every_marker_replaced_unique (s out : string) :
  every_marker_replaced new s out → out = PyStr.replace s "](" new.
Proof. intros (parts & -> & Hfree & ->). by rewrite replace_join. Qed.

End Marker.

(** ** Running the script *)

Section Run.

Variables (fs : gmap string string) (pkgs : list string).

(** With a [README.md] in place the script runs to its end: the file is
    closed again and [setup] has been called once. *)
Lemma run_readme (text : string) :
  fs !! "README.md" = Some text →
  run fs pkgs
  = (Returned (), State fs pkgs [] [setup_kwargs (rewrite_links text) pkgs]).
Proof.
  intros Hfile.
  unfold run, script, read_long_description, with_open, closing, open_r.
  unfold mbind, M_bind. simpl. rewrite Hfile. reflexivity.
Qed.

(** Without it [open] raises and nothing after line 3 runs. *)
Lemma run_no_readme :
  fs !! "README.md" = None →
  run fs pkgs = (Raised (FileNotFoundError "README.md"), boot fs pkgs).
Proof.
  intros Hfile.
  unfold run, script, read_long_description, with_open, closing, open_r.
  unfold mbind, M_bind. simpl. rewrite Hfile. reflexivity.
Qed.

Lemma declared_readme (text : string) :
  fs !! "README.md" = Some text →
  declared fs pkgs = [setup_kwargs (rewrite_links text) pkgs].
Proof. intros Hfile. unfold declared. by rewrite (run_readme text). Qed.

Lemma declared_no_readme :
  fs !! "README.md" = None → declared fs pkgs = [].
Proof. intros Hfile. unfold declared. by rewrite run_no_readme. Qed.

(** Every [setup] call of a run carries the keyword arguments of lines
    9-26, for the text read and the packages found. *)
Lemma declared_inv (kwargs : gmap string value) :
  kwargs ∈ declared fs pkgs →
  ∃ text,
    fs !! "README.md" = Some text ∧
    kwargs = setup_kwargs (rewrite_links text) pkgs.
Proof.
  destruct (fs !! "README.md") as [text|] eqn:Hfile.
  - rewrite (declared_readme text Hfile). intros ->%list_elem_of_singleton. eauto.
  - rewrite (declared_no_readme Hfile). by intros ?%elem_of_nil.
Qed.

End Run.

Example run_example :
  run fs_example ["turbine"]
  = (Returned (), State fs_example ["turbine"] [] [kwargs_example]).
Proof. reflexivity. Qed.

Example run_empty_directory :
  run ∅ [] = (Raised (FileNotFoundError "README.md"), State ∅ [] [] []).
Proof. reflexivity. Qed.

Example replace_overlap : PyStr.replace "aaa" "aa" "b" = "ba".
Proof. reflexivity. Qed.

Example replace_empty_old : PyStr.replace "abc" "" "-" = "-a-b-c-".
Proof. reflexivity. Qed.

Example rewrite_links_bracket_run :
  rewrite_links "a]](b" = "a]](https://github.com/Kasekopf/Turbine/blob/master/b".
Proof. reflexivity. Qed.

(** ** The declared metadata *)

(** C1: every [setup] call of the script passes the name "turbine", the
    version "0.1.0" and the license "MIT". *)
Theorem setup_name_version_license
    (fs : gmap string string) (pkgs : list string) (kwargs : gmap string value) :
  kwargs ∈ declared fs pkgs →
  kwargs !! "name" = Some (VStr "turbine") ∧
  kwargs !! "version" = Some (VStr "0.1.0") ∧
  kwargs !! "license" = Some (VStr "MIT").
Proof. intros (text & _ & ->)%declared_inv. done. Qed.

Lemma setup_name_version_license_witness :
  kwargs_example ∈ declared fs_example ["turbine"] ∧
  kwargs_example !! "name" = Some (VStr "turbine") ∧
  kwargs_example !! "version" = Some (VStr "0.1.0") ∧
  kwargs_example !! "license" = Some (VStr "MIT").
Proof.
  assert (kwargs_example ∈ declared fs_example ["turbine"]) as Hcall.
  { vm_compute. left. }
  split; [exact Hcall|].
  exact (setup_name_version_license fs_example ["turbine"] kwargs_example Hcall).
Defined.

(** C2: [install_requires] is the list of exactly four client libraries
    (pub/sub, storage, logging, API client), and no further requirement
    list is passed. *)
Theorem setup_install_requires
    (fs : gmap string string) (pkgs : list string) (kwargs : gmap string value) :
  kwargs ∈ declared fs pkgs →
  ∃ reqs,
    kwargs !! "install_requires" = Some (VList reqs) ∧
    reqs = ["google-cloud-pubsub"; "google-cloud-storage";
            "google-cloud-logging"; "google-api-python-client"] ∧
    length reqs = 4 ∧
    kwargs !! "extras_require" = None ∧
    kwargs !! "setup_requires" = None ∧
    kwargs !! "tests_require" = None.
Proof. intros (text & _ & ->)%declared_inv. by eexists. Qed.

Lemma setup_install_requires_witness :
  kwargs_example ∈ declared fs_example ["turbine"] ∧
  ∃ reqs,
    kwargs_example !! "install_requires" = Some (VList reqs) ∧
    reqs = ["google-cloud-pubsub"; "google-cloud-storage";
            "google-cloud-logging"; "google-api-python-client"] ∧
    length reqs = 4 ∧
    kwargs_example !! "extras_require" = None ∧
    kwargs_example !! "setup_requires" = None ∧
    kwargs_example !! "tests_require" = None.
Proof.
  assert (kwargs_example ∈ declared fs_example ["turbine"]) as Hcall.
  { vm_compute. left. }
  split; [exact Hcall|].
  exact (setup_install_requires fs_example ["turbine"] kwargs_example Hcall).
Defined.

(** C3: [python_requires] is ">=3.6", [platforms] is
    "Posix; MacOS X; Windows", and the classifiers include
    "Operating System :: OS Independent". *)
Theorem setup_runtime_and_platforms
    (fs : gmap string string) (pkgs : list string) (kwargs : gmap string value) :
  kwargs ∈ declared fs pkgs →
  kwargs !! "python_requires" = Some (VStr ">=3.6") ∧
  kwargs !! "platforms" = Some (VStr "Posix; MacOS X; Windows") ∧
  ∃ classifiers,
    kwargs !! "classifiers" = Some (VList classifiers) ∧
    "Operating System :: OS Independent" ∈ classifiers.
Proof.
  intros (text & _ & ->)%declared_inv.
  split_and!; [done..|]. eexists. split; [done|]. set_solver.
Qed.

Lemma setup_runtime_and_platforms_witness :
  kwargs_example ∈ declared fs_example ["turbine"] ∧
  kwargs_example !! "python_requires" = Some (VStr ">=3.6") ∧
  kwargs_example !! "platforms" = Some (VStr "Posix; MacOS X; Windows") ∧
  ∃ classifiers,
    kwargs_example !! "classifiers" = Some (VList classifiers) ∧
    "Operating System :: OS Independent" ∈ classifiers.
Proof.
  assert (kwargs_example ∈ declared fs_example ["turbine"]) as Hcall.
  { vm_compute. left. }
  split; [exact Hcall|].
  exact (setup_runtime_and_platforms fs_example ["turbine"] kwargs_example Hcall).
Defined.

(** C4: the license argument and the license classifier agree: the one
    classifier about the license is the trove classifier of the license
    named by the [license] argument, "MIT". *)
Theorem setup_license_consistent
    (fs : gmap string string) (pkgs : list string) (kwargs : gmap string value) :
  kwargs ∈ declared fs pkgs →
  ∃ name classifiers,
    kwargs !! "license" = Some (VStr name) ∧
    kwargs !! "classifiers" = Some (VList classifiers) ∧
    name = "MIT" ∧
    "License :: OSI Approved :: MIT License" ∈ classifiers ∧
    license_classifiers classifiers = [license_classifier name].
Proof.
  intros (text & _ & ->)%declared_inv.
  do 2 eexists. split_and!; [done..| |done]. set_solver.
Qed.

Lemma setup_license_consistent_witness :
  kwargs_example ∈ declared fs_example ["turbine"] ∧
  ∃ name classifiers,
    kwargs_example !! "license" = Some (VStr name) ∧
    kwargs_example !! "classifiers" = Some (VList classifiers) ∧
    name = "MIT" ∧
    "License :: OSI Approved :: MIT License" ∈ classifiers ∧
    license_classifiers classifiers = [license_classifier name].
Proof.
  assert (kwargs_example ∈ declared fs_example ["turbine"]) as Hcall.
  { vm_compute. left. }
  split; [exact Hcall|].
  exact (setup_license_consistent fs_example ["turbine"] kwargs_example Hcall).
Defined.

(** C5: the author is "Jeffrey Dudek", an author email is given, and the
    description is exactly "A Python 3 tool to harness the google cloud
    to run shell scripts". *)
Theorem setup_author_and_description
    (fs : gmap string string) (pkgs : list string) (kwargs : gmap string value) :
  kwargs ∈ declared fs pkgs →
  kwargs !! "author" = Some (VStr "Jeffrey Dudek") ∧
  kwargs !! "author_email" = Some (VStr "jeffreydudek@gmail.com") ∧
  kwargs !! "description"
  = Some (VStr "A Python 3 tool to harness the google cloud to run shell scripts").
Proof. intros (text & _ & ->)%declared_inv. done. Qed.

Lemma setup_author_and_description_witness :
  kwargs_example ∈ declared fs_example ["turbine"] ∧
  kwargs_example !! "author" = Some (VStr "Jeffrey Dudek") ∧
  kwargs_example !! "author_email" = Some (VStr "jeffreydudek@gmail.com") ∧
  kwargs_example !! "description"
  = Some (VStr "A Python 3 tool to harness the google cloud to run shell scripts").
Proof.
  assert (kwargs_example ∈ declared fs_example ["turbine"]) as Hcall.
  { vm_compute. left. }
  split; [exact Hcall|].
  exact (setup_author_and_description fs_example ["turbine"] kwargs_example Hcall).
Defined.

(** C6: the keyword arguments of the [setup] call are the fourteen of
    lines 9-26; there is no [entry_points], no [scripts] and no
    [console_scripts] among them. *)
Theorem setup_no_cli_surface
    (fs : gmap string string) (pkgs : list string) (kwargs : gmap string value) :
  kwargs ∈ declared fs pkgs →
  kwargs !! "entry_points" = None ∧
  kwargs !! "scripts" = None ∧
  kwargs !! "console_scripts" = None ∧
  dom kwargs
  = list_to_set
      ["name"; "version"; "author"; "author_email"; "description";
       "long_description"; "long_description_content_type"; "url";
       "packages"; "license"; "platforms"; "install_requires";
       "python_requires"; "classifiers"].
Proof.
  intros (text & _ & ->)%declared_inv. split_and!; [done..|].
  unfold setup_kwargs. rewrite dom_list_to_map_L. reflexivity.
Qed.

Lemma setup_no_cli_surface_witness :
  kwargs_example ∈ declared fs_example ["turbine"] ∧
  kwargs_example !! "entry_points" = None ∧
  kwargs_example !! "scripts" = None ∧
  kwargs_example !! "console_scripts" = None ∧
  dom kwargs_example
  = list_to_set
      ["name"; "version"; "author"; "author_email"; "description";
       "long_description"; "long_description_content_type"; "url";
       "packages"; "license"; "platforms"; "install_requires";
       "python_requires"; "classifiers"].
Proof.
  assert (kwargs_example ∈ declared fs_example ["turbine"]) as Hcall.
  { vm_compute. left. }
  split; [exact Hcall|].
  exact (setup_no_cli_surface fs_example ["turbine"] kwargs_example Hcall).
Defined.

(** ** Rewriting the links of the README *)

Section Links.

Lemma length_join (sep p : string) (parts : list string) :
  String.length (PyStr.join sep (p :: parts))
  = String.length p + sum_list (String.length <$> parts)
    + length parts * String.length sep.
Proof.
  unfold PyStr.join. revert p.
  induction parts as [|q parts IH]; intros p; [simpl; lia|].
  change (String.concat sep (p :: q :: parts))
    with (p +:+ sep +:+ String.concat sep (q :: parts)).
  rewrite !length_app, IH. csimpl. lia.
Qed.

(** A text with a marker has at least two parts. *)
Lemma marker_two_parts (s : string) :
  PyStr.occurs_in "](" s →
  ∃ p q parts,
    s = PyStr.join "](" (p :: q :: parts) ∧
    Forall (λ p, ¬ PyStr.occurs_in "](" p) (p :: q :: parts).
Proof.
  intros Hocc. destruct (marker_parts s) as (p & [|q parts] & -> & Hfree); [|eauto].
  by apply Forall_cons in Hfree as [[] _].
Qed.

(** What [rewrite_links] inserts starts with the marker itself. *)
Lemma link_prefix_marker :
  "](https://github.com/Kasekopf/Turbine/blob/master/" = "](" +:+ link_base.
Proof. reflexivity. Qed.

Lemma rewrite_links_grows (s : string) :
  PyStr.occurs_in "](" s →
  String.length s < String.length (rewrite_links s).
Proof.
  intros (p & q & parts & -> & Hfree)%marker_two_parts.
  unfold rewrite_links. rewrite replace_join, !length_join by done.
  simpl. lia.
Qed.

Lemma rewrite_links_keeps_marker (s : string) :
  PyStr.occurs_in "](" s → PyStr.occurs_in "](" (rewrite_links s).
Proof.
  intros (p & q & parts & -> & Hfree)%marker_two_parts.
  unfold rewrite_links. rewrite replace_join by done.
  exists p, (link_base +:+ PyStr.join ("](" +:+ link_base) (q :: parts)).
  unfold PyStr.join.
  change (String.concat ?sep (p :: q :: parts))
    with (p +:+ sep +:+ String.concat sep (q :: parts)).
  by rewrite link_prefix_marker, app_assoc.
Qed.

(** A link target that is absolute already gets the base once more. *)
Lemma rewrite_links_absolute (target : string) :
  rewrite_links ("](" +:+ link_base +:+ target)
  = "](" +:+ link_base +:+ link_base +:+ rewrite_links target.
Proof.
  unfold rewrite_links, PyStr.replace, link_base.
  rewrite !app_cons. change ("" +:+ ?s) with s.
  rewrite scan_marker. reflexivity.
Qed.

End Links.

(** C7: for every text [s] read from [README.md], the
    [long_description] passed to [setup] is [s] with every occurrence of
    "](" replaced by "](https://github.com/Kasekopf/Turbine/blob/master/":
    the parts of [s] between the markers are kept as they are, a text
    without marker is passed unchanged, and the result depends on [s]
    alone. *)
Theorem long_description_rewrites_links
    (fs : gmap string string) (pkgs : list string) (s : string) :
  fs !! "README.md" = Some s →
  ∃ kwargs out,
    declared fs pkgs = [kwargs] ∧
    kwargs !! "long_description" = Some (VStr out) ∧
    every_marker_replaced
      "](https://github.com/Kasekopf/Turbine/blob/master/" s out ∧
    (∀ out',
       every_marker_replaced
         "](https://github.com/Kasekopf/Turbine/blob/master/" s out' →
       out' = out) ∧
    (PyStr.contains "](" s = false → out = s) ∧
    (∀ fs' pkgs',
       fs' !! "README.md" = Some s →
       ∃ kwargs',
         declared fs' pkgs' = [kwargs'] ∧
         kwargs' !! "long_description" = Some (VStr out)).
Proof.
  intros Hfile.
  exists (setup_kwargs (rewrite_links s) pkgs), (rewrite_links s).
  split_and!.
  - by apply declared_readme.
  - done.
  - apply replace_spec.
  - apply every_marker_replaced_unique.
  - intros Hfree%contains_false.
    unfold rewrite_links, PyStr.replace. by apply scan_last_part.
  - intros fs' pkgs' Hfile'.
    exists (setup_kwargs (rewrite_links s) pkgs'). split; [|done].
    by apply declared_readme.
Qed.

Lemma long_description_rewrites_links_witness :
  fs_example !! "README.md" = Some readme_example ∧
  ∃ kwargs out,
    declared fs_example ["turbine"] = [kwargs] ∧
    kwargs !! "long_description" = Some (VStr out) ∧
    every_marker_replaced
      "](https://github.com/Kasekopf/Turbine/blob/master/" readme_example out ∧
    (∀ out',
       every_marker_replaced
         "](https://github.com/Kasekopf/Turbine/blob/master/" readme_example out' →
       out' = out) ∧
    (PyStr.contains "](" readme_example = false → out = readme_example) ∧
    (∀ fs' pkgs',
       fs' !! "README.md" = Some readme_example →
       ∃ kwargs',
         declared fs' pkgs' = [kwargs'] ∧
         kwargs' !! "long_description" = Some (VStr out)).
Proof.
  assert (fs_example !! "README.md" = Some readme_example) as Hfile.
  { reflexivity. }
  split; [exact Hfile|].
  exact (long_description_rewrites_links fs_example ["turbine"] readme_example Hfile).
Defined.

(** C8: rewriting the links is not idempotent.  On every text that holds
    a "](" the second pass gives another text than the first: the first
    pass leaves every marker in place (what it inserts starts with one),
    so the second pass inserts the base again and the text grows; a link
    target that is absolute already is prefixed once more. *)
Theorem rewrite_links_not_idempotent (s : string) :
  PyStr.contains "](" s = true →
  rewrite_links (rewrite_links s) ≠ rewrite_links s ∧
  PyStr.contains "](" (rewrite_links s) = true ∧
  String.length (rewrite_links s) < String.length (rewrite_links (rewrite_links s)) ∧
  (∀ target,
     rewrite_links ("](" +:+ link_base +:+ target)
     = "](" +:+ link_base +:+ link_base +:+ rewrite_links target).
Proof.
  intros Hocc%contains_spec.
  pose proof (rewrite_links_keeps_marker s Hocc) as Hkept.
  pose proof (rewrite_links_grows _ Hkept) as Hgrows.
  split_and!.
  - intros Heq. rewrite Heq in Hgrows. lia.
  - by apply contains_spec.
  - done.
  - apply rewrite_links_absolute.
Qed.

Lemma rewrite_links_not_idempotent_witness :
  PyStr.contains "](" readme_example = true ∧
  rewrite_links (rewrite_links readme_example) ≠ rewrite_links readme_example ∧
  PyStr.contains "](" (rewrite_links readme_example) = true ∧
  String.length (rewrite_links readme_example)
  < String.length (rewrite_links (rewrite_links readme_example)) ∧
  (∀ target,
     rewrite_links ("](" +:+ link_base +:+ target)
     = "](" +:+ link_base +:+ link_base +:+ rewrite_links target).
Proof.
  assert (PyStr.contains "](" readme_example = true) as Hocc.
  { reflexivity. }
  split; [exact Hocc|].
  exact (rewrite_links_not_idempotent readme_example Hocc).
Defined.

(** C9: [README.md] is opened with no guard.  In a working directory
    without that file the script ends with [FileNotFoundError], raised
    by [open]; [setup] is not called, nothing is declared, and the state
    is as it was at the start. *)
Theorem missing_readme_raises (fs : gmap string string) (pkgs : list string) :
  fs !! "README.md" = None →
  (run fs pkgs).1 = Raised (FileNotFoundError "README.md") ∧
  declared fs pkgs = [] ∧
  (run fs pkgs).2 = boot fs pkgs.
Proof.
  intros Hfile. unfold declared. by rewrite (run_no_readme fs pkgs Hfile).
Qed.

Lemma missing_readme_raises_witness :
  ({[ "setup.py" := "import setuptools" ]} : gmap string string) !! "README.md" = None ∧
  (run {[ "setup.py" := "import setuptools" ]} []).1
  = Raised (FileNotFoundError "README.md") ∧
  declared {[ "setup.py" := "import setuptools" ]} [] = [] ∧
  (run {[ "setup.py" := "import setuptools" ]} []).2
  = boot {[ "setup.py" := "import setuptools" ]} [].
Proof.
  assert (({[ "setup.py" := "import setuptools" ]} : gmap string string)
            !! "README.md" = None) as Hfile.
  { reflexivity. }
  split; [exact Hfile|].
  exact (missing_readme_raises {[ "setup.py" := "import setuptools" ]} [] Hfile).
Defined.

(** ** The scan, one step at a time *)

Section Scan.

Variables old new : string.

Lemma scan_hit (c : ascii) (s : string) :
  String.prefix old (String c s) = true →
  PyStr.replace_scan old new 0 (String c s)
  = new +:+ PyStr.replace_scan old new (String.length old - 1) s.
Proof. intros Hpre. cbn [PyStr.replace_scan]. by rewrite Hpre. Qed.

Lemma scan_miss (c : ascii) (s : string) :
  String.prefix old (String c s) = false →
  PyStr.replace_scan old new 0 (String c s)
  = String c (PyStr.replace_scan old new 0 s).
Proof. intros Hpre. cbn [PyStr.replace_scan]. by rewrite Hpre. Qed.

Lemma prefix_app_l (more s : string) :
  String.prefix (old +:+ more) s = true → String.prefix old s = true.
Proof.
  rewrite !prefix_spec. intros [after ->].
  exists (more +:+ after). by rewrite app_assoc.
Qed.

End Scan.

(** ** Rewriting is local *)

Section Local.

Variable new : string.

(** The first two characters decide whether a marker starts. *)
Lemma prefix_marker_two (c d : ascii) (r r' : string) :
  String.prefix "](" (String c (String d r))
  = String.prefix "](" (String c (String d r')).
Proof.
  destruct (String.prefix "](" (String c (String d r'))) eqn:Hpre.
  - apply prefix_marker in Hpre as [? [= -> -> ?]]. apply prefix_marker. eauto.
  - destruct (String.prefix "](" (String c (String d r))) eqn:Hpre'; [|done].
    apply prefix_marker in Hpre' as [? [= -> -> ?]].
    rewrite <-Hpre. symmetry. apply prefix_marker. eauto.
Qed.

Lemma scan_app (a b : string) :
  ¬ (∃ a' b', a = a' +:+ "]" ∧ b = "(" +:+ b') →
  PyStr.replace_scan "](" new 0 (a +:+ b)
  = PyStr.replace_scan "](" new 0 a +:+ PyStr.replace_scan "](" new 0 b.
Proof.
  induction a as [|c|c d r IHr IHdr] using string_ind2; intros Hcut.
  - done.
  - rewrite app_cons. change ("" +:+ b) with b.
    assert (String.prefix "](" (String c b) = false) as Hb.
    { destruct (String.prefix _ _) eqn:Hpre; [|done].
      apply prefix_marker in Hpre as [r [= -> ->]].
      destruct Hcut. by exists "", r. }
    assert (String.prefix "](" (String c "") = false) as Hc.
    { destruct (String.prefix "](" (String c "")) eqn:Hpre; [|done].
      by apply prefix_marker in Hpre as [r [=]]. }
    by rewrite (scan_miss _ _ _ _ Hb), (scan_miss _ _ _ _ Hc).
  - rewrite !app_cons.
    destruct (String.prefix "](" (String c (String d r))) eqn:Hpre.
    + apply prefix_marker in Hpre as [? [= -> -> <-]].
      rewrite !scan_marker, IHr, app_assoc; [done|].
      intros (a' & b' & -> & ->). apply Hcut.
      by exists (String "]" (String "(" a')), b'.
    + rewrite (scan_miss _ _ _ _ Hpre).
      rewrite (prefix_marker_two c d _ (r +:+ b)) in Hpre.
      rewrite (scan_miss _ _ _ _ Hpre), <-app_cons, IHdr; [done|].
      intros (a' & b' & Heq & ->). apply Hcut.
      exists (String c a'), b'. by rewrite app_cons, <-Heq.
Qed.

End Local.

(** ** Texts as marker-free parts *)

Section Parts.

Lemma join_cons (sep p q : string) (parts : list string) :
  PyStr.join sep (p :: q :: parts) = p +:+ sep +:+ PyStr.join sep (q :: parts).
Proof. reflexivity. Qed.

(** Joining with a marker followed by [a] is joining with the marker
    the parts that follow it, each with [a] in front. *)
Lemma join_marker_then (a p : string) (parts : list string) :
  PyStr.join ("](" +:+ a) (p :: parts)
  = PyStr.join "](" (p :: (String.append a <$> parts)).
Proof.
  revert p. induction parts as [|q parts IH]; intros p; [done|].
  rewrite fmap_cons, !join_cons, IH.
  destruct parts; csimpl; by rewrite ?join_cons, !app_assoc.
Qed.

Lemma link_base_free (q : string) :
  ¬ PyStr.occurs_in "](" q → ¬ PyStr.occurs_in "](" (link_base +:+ q).
Proof.
  rewrite <-!contains_false. intros Hq.
  by assert (PyStr.contains "](" (link_base +:+ q) = PyStr.contains "](" q)
    as -> by reflexivity.
Qed.

Lemma link_base_parts_free (parts : list string) :
  Forall (λ p, ¬ PyStr.occurs_in "](" p) parts → Forall (λ p, ¬ PyStr.occurs_in "](" p) (String.append link_base <$> parts).
Proof.
  induction 1; csimpl; constructor; auto using link_base_free.
Qed.

Lemma app_nil_l (s : string) : "" +:+ s = s.
Proof. reflexivity. Qed.

(** The first marker of a text that starts with a marker-free part is
    the one that ends this part. *)
Lemma first_marker (p r before after : string) :
  ¬ PyStr.occurs_in "](" p →
  p +:+ String "]" (String "(" r) = before +:+ String "]" (String "(" after) →
  (before = p ∧ after = r) ∨
  (∃ mid, before = p +:+ "](" +:+ mid ∧ r = mid +:+ "](" +:+ after).
Proof.
  revert before. induction p as [|c p IH]; intros before Hfree Heq.
  - destruct before as [|b [|b' before]];
      rewrite ?app_cons, ?app_nil_l in Heq.
    + left. split; [done|]. by injection Heq.
    + by injection Heq.
    + right. exists before. by injection Heq as <- <- ->.
  - destruct before as [|b before]; rewrite ?app_cons, ?app_nil_l in Heq.
    + destruct Hfree. destruct p as [|d p]; rewrite ?app_cons, ?app_nil_l in Heq.
      * by injection Heq.
      * injection Heq as -> -> _. by exists "", p.
    + injection Heq as -> Heq.
      destruct (IH before) as [[-> ->]|(mid & -> & ->)];
        eauto using marker_free_tail.
Qed.

(** Every marker of a text is one of those that join its parts. *)
Lemma join_marker_at (p : string) (parts : list string) (before after : string) :
  Forall (λ p, ¬ PyStr.occurs_in "](" p) (p :: parts) →
  PyStr.join "](" (p :: parts) = before +:+ "](" +:+ after →
  ∃ front q back,
    parts = front ++ q :: back ∧
    before = PyStr.join "](" (p :: front) ∧
    after = PyStr.join "](" (q :: back).
Proof.
  revert p before. induction parts as [|q parts IH]; intros p before Hfree Heq.
  - apply Forall_cons in Hfree as [[] _]. by exists before, after.
  - apply Forall_cons in Hfree as [Hp Hfree]. rewrite join_cons in Heq.
    apply (first_marker _ _ _ _ Hp) in Heq as [[-> ->]|(mid & -> & Hmid)].
    + by exists [], q, parts.
    + destruct (IH q mid Hfree Hmid) as (front & q' & back & -> & -> & ->).
      by exists (q :: front), q', back.
Qed.

End Parts.

(** ** Undoing the rewriting *)

Section Restore.

Lemma prefix_link_false (c : ascii) (s : string) :
  String.prefix "](" (String c s) = false →
  String.prefix "](https://github.com/Kasekopf/Turbine/blob/master/" (String c s)
  = false.
Proof.
  intros Hpre.
  destruct (String.prefix "](https://github.com/Kasekopf/Turbine/blob/master/"
              (String c s)) eqn:Hlong; [|done].
  rewrite link_prefix_marker in Hlong. apply prefix_app_l in Hlong. congruence.
Qed.

Lemma unscan_link (r : string) :
  PyStr.replace_scan "](https://github.com/Kasekopf/Turbine/blob/master/" "](" 0
    (String "]" (String "(" (link_base +:+ r)))
  = "](" +:+
    PyStr.replace_scan "](https://github.com/Kasekopf/Turbine/blob/master/" "](" 0 r.
Proof.
  rewrite scan_hit; [reflexivity|].
  apply prefix_spec. by exists r.
Qed.

Lemma unscan_part (p r : string) :
  ¬ PyStr.occurs_in "](" p →
  PyStr.replace_scan "](https://github.com/Kasekopf/Turbine/blob/master/" "](" 0
    (p +:+ String "]" (String "(" (link_base +:+ r)))
  = p +:+ "](" +:+
    PyStr.replace_scan "](https://github.com/Kasekopf/Turbine/blob/master/" "](" 0 r.
Proof.
  induction p as [|c p IH]; intros Hfree.
  - apply unscan_link.
  - rewrite !app_cons, scan_miss.
    + f_equal. eauto using marker_free_tail.
    + by apply prefix_link_false, marker_free_prefix.
Qed.

Lemma unscan_last_part (p : string) :
  ¬ PyStr.occurs_in "](" p →
  PyStr.replace_scan "](https://github.com/Kasekopf/Turbine/blob/master/" "](" 0 p
  = p.
Proof.
  intros Hfree. rewrite <-(scan_last_part "](" p Hfree) at 2.
  induction p as [|c p IH]; [done|].
  assert (String.prefix "](" (String c p) = false) as Hpre.
  { destruct (String.prefix "](" (String c p)) eqn:Hpre; [|done].
    destruct Hfree. apply prefix_spec in Hpre as [after ->]. by exists "", after. }
  rewrite (scan_other _ _ _ Hpre), scan_miss by by apply prefix_link_false.
  f_equal. eauto using marker_free_tail.
Qed.

Lemma restore_join (parts : list string) :
  Forall (λ p, ¬ PyStr.occurs_in "](" p) parts →
  restore_links
    (PyStr.join "](https://github.com/Kasekopf/Turbine/blob/master/" parts)
  = PyStr.join "](" parts.
Proof.
  unfold restore_links, PyStr.replace.
  induction 1 as [|p [|q parts] Hp Hparts IH]; [done|by apply unscan_last_part|].
  rewrite !join_cons.
  change ("](https://github.com/Kasekopf/Turbine/blob/master/" +:+ ?r)
    with (String "]" (String "(" (link_base +:+ r))).
  by rewrite unscan_part, IH.
Qed.

End Restore.

(** ** Counting the markers *)

Section Count.

Lemma count_marker (r : string) :
  PyStr.count_scan "](" 0 (String "]" (String "(" r))
  = S (PyStr.count_scan "](" 0 r).
Proof.
  assert (String.prefix "](" (String "]" (String "(" r)) = true) as Hpre.
  { apply prefix_marker. by exists r. }
  cbn [PyStr.count_scan]. by rewrite Hpre.
Qed.

Lemma count_other (c : ascii) (r : string) :
  String.prefix "](" (String c r) = false →
  PyStr.count_scan "](" 0 (String c r) = PyStr.count_scan "](" 0 r.
Proof. intros Hpre. cbn [PyStr.count_scan]. by rewrite Hpre. Qed.

Lemma count_part (p r : string) :
  ¬ PyStr.occurs_in "](" p →
  PyStr.count_scan "](" 0 (p +:+ String "]" (String "(" r))
  = S (PyStr.count_scan "](" 0 r).
Proof.
  induction p as [|c p IH]; intros Hfree.
  - apply count_marker.
  - rewrite !app_cons, count_other by by apply marker_free_prefix.
    eauto using marker_free_tail.
Qed.

Lemma count_last_part (p : string) :
  ¬ PyStr.occurs_in "](" p → PyStr.count_scan "](" 0 p = 0.
Proof.
  induction p as [|c p IH]; intros Hfree; [done|].
  rewrite count_other; [eauto using marker_free_tail|].
  destruct (String.prefix "](" (String c p)) eqn:Hpre; [|done].
  destruct Hfree. apply prefix_spec in Hpre as [after ->]. by exists "", after.
Qed.

(** A text of marker-free parts has one marker less than parts. *)
Lemma count_join (p : string) (parts : list string) :
  Forall (λ p, ¬ PyStr.occurs_in "](" p) (p :: parts) →
  PyStr.count (PyStr.join "](" (p :: parts)) "](" = length parts.
Proof.
  unfold PyStr.count. revert p.
  induction parts as [|q parts IH]; intros p [Hp Hfree]%Forall_cons.
  - by apply count_last_part.
  - rewrite join_cons.
    change ("](" +:+ ?r) with (String "]" (String "(" r)).
    rewrite count_part, IH by done. done.
Qed.

End Count.

Example count_overlap : PyStr.count "aaa" "aa" = 1.
Proof. reflexivity. Qed.

Example count_empty_sub : PyStr.count "abc" "" = 4.
Proof. reflexivity. Qed.

Example count_readme : PyStr.count readme_example "](" = 2.
Proof. reflexivity. Qed.

Example restore_readme :
  restore_links
    "# Turbine: see [the guide](https://github.com/Kasekopf/Turbine/blob/master/docs/guide.md) and [the license](https://github.com/Kasekopf/Turbine/blob/master/LICENSE)."
  = readme_example.
Proof. reflexivity. Qed.

(** ** More on the rewritten text and on the run *)

Lemma rewrite_links_parts (p : string) (parts : list string) :
  Forall (λ p, ¬ PyStr.occurs_in "](" p) (p :: parts) →
  rewrite_links (PyStr.join "](" (p :: parts))
  = PyStr.join "](" (p :: (String.append link_base <$> parts)).
Proof.
  intros Hfree. unfold rewrite_links.
  by rewrite replace_join, link_prefix_marker, join_marker_then.
Qed.

Lemma rewrite_links_targets (s before after : string) :
  rewrite_links s = before +:+ "](" +:+ after →
  ∃ target, after = link_base +:+ target.
Proof.
  destruct (marker_parts s) as (p & parts & -> & Hfree).
  rewrite rewrite_links_parts by done. intros Heq.
  apply join_marker_at in Heq as (front & q & back & Hparts & _ & ->).
  - apply fmap_app_inv in Hparts as (front' & rest & _ & Hrest & _).
    symmetry in Hrest.
    apply fmap_cons_inv in Hrest as (q' & back' & -> & _ & _).
    destruct back as [|q'' back].
    + by exists q'.
    + exists (q' +:+ "](" +:+ PyStr.join "](" (q'' :: back)).
      by rewrite join_cons, app_assoc.
  - apply Forall_cons in Hfree as [Hp Hfree].
    constructor; [done|]. by apply link_base_parts_free.
Qed.

(** X1: replacing the inserted text by the marker again gives the README
    text back, so the rewriting loses nothing of it. *)
Theorem restore_rewrite_links (s : string) :
  restore_links (rewrite_links s) = s.
Proof.
  destruct (marker_parts s) as (p & parts & -> & Hfree).
  unfold rewrite_links. by rewrite replace_join, restore_join.
Qed.

(** X2: in the [long_description] of every [setup] call, whatever
    follows a "](" starts with the [url] argument and "/blob/master/":
    every link target points into the declared repository. *)
Theorem long_description_links_absolute
    (fs : gmap string string) (pkgs : list string) (kwargs : gmap string value) :
  kwargs ∈ declared fs pkgs →
  ∃ url out,
    kwargs !! "url" = Some (VStr url) ∧
    kwargs !! "long_description" = Some (VStr out) ∧
    ∀ before after,
      out = before +:+ "](" +:+ after →
      ∃ target, after = url +:+ "/blob/master/" +:+ target.
Proof.
  intros (text & _ & ->)%declared_inv.
  exists "https://github.com/Kasekopf/Turbine", (rewrite_links text).
  split_and!; [done..|].
  intros before after [target ->]%rewrite_links_targets. by exists target.
Qed.

Lemma long_description_links_absolute_witness :
  kwargs_example ∈ declared fs_example ["turbine"] ∧
  ∃ url out,
    kwargs_example !! "url" = Some (VStr url) ∧
    kwargs_example !! "long_description" = Some (VStr out) ∧
    ∀ before after,
      out = before +:+ "](" +:+ after →
      ∃ target, after = url +:+ "/blob/master/" +:+ target.
Proof.
  assert (kwargs_example ∈ declared fs_example ["turbine"]) as Hcall.
  { vm_compute. left. }
  split; [exact Hcall|].
  exact (long_description_links_absolute fs_example ["turbine"] kwargs_example Hcall).
Defined.

(** X3: rewriting twice is replacing every "](" once, by the marker
    followed by the base twice. *)
Theorem rewrite_links_twice (s : string) :
  rewrite_links (rewrite_links s)
  = PyStr.replace s "]("
      "](https://github.com/Kasekopf/Turbine/blob/master/https://github.com/Kasekopf/Turbine/blob/master/".
Proof.
  destruct (marker_parts s) as (p & parts & -> & Hfree).
  pose proof Hfree as [Hp Hparts]%Forall_cons.
  rewrite rewrite_links_parts, rewrite_links_parts, replace_join by
    (done || (constructor; [done|]; by apply link_base_parts_free)).
  change "](https://github.com/Kasekopf/Turbine/blob/master/https://github.com/Kasekopf/Turbine/blob/master/"
    with ("](" +:+ link_base +:+ link_base).
  rewrite join_marker_then, <-list_fmap_compose. reflexivity.
Qed.

(** X4: rewriting keeps the number of "](" and makes the text 48
    characters longer for each of them. *)
Theorem rewrite_links_count_length (s : string) :
  PyStr.count (rewrite_links s) "](" = PyStr.count s "](" ∧
  String.length (rewrite_links s) = String.length s + 48 * PyStr.count s "](".
Proof.
  destruct (marker_parts s) as (p & parts & -> & Hfree).
  pose proof Hfree as [Hp Hparts]%Forall_cons. split.
  - assert (Forall (λ p, ¬ PyStr.occurs_in "](" p)
              (p :: (String.append link_base <$> parts))) as Hfree'.
    { constructor; [done|]. by apply link_base_parts_free. }
    by rewrite rewrite_links_parts, !count_join, length_fmap.
  - rewrite count_join by done. unfold rewrite_links.
    rewrite replace_join, !length_join by done. simpl. lia.
Qed.

(** X5: rewriting works on each piece of a text by itself, wherever the
    text is cut, except between a "]" and a "(" that follows it. *)
Theorem rewrite_links_app (a b : string) :
  ¬ (∃ a' b', a = a' +:+ "]" ∧ b = "(" +:+ b') →
  rewrite_links (a +:+ b) = rewrite_links a +:+ rewrite_links b.
Proof. apply scan_app. Qed.

Lemma rewrite_links_app_witness :
  ¬ (∃ a' b', "see [the guide](docs/" = a' +:+ "]" ∧ "guide.md)" = "(" +:+ b') ∧
  rewrite_links ("see [the guide](docs/" +:+ "guide.md)")
  = rewrite_links "see [the guide](docs/" +:+ rewrite_links "guide.md)".
Proof.
  assert (¬ (∃ a' b', "see [the guide](docs/" = a' +:+ "]"
                      ∧ "guide.md)" = "(" +:+ b')) as Hcut.
  { intros (a' & b' & _ & Hb). discriminate Hb. }
  split; [exact Hcut|].
  exact (rewrite_links_app "see [the guide](docs/" "guide.md)" Hcut).
Defined.

Example rewrite_links_cut_in_marker :
  rewrite_links ("]" +:+ "(") ≠ rewrite_links "]" +:+ rewrite_links "(".
Proof. discriminate. Qed.



